(** * Drone Services API: the document normalizer and the route handlers

    A shallow embedding of [main.py].  Python dictionaries are finite maps
    from field names to values ([gmap string value]); a route handler
    returns a [reply]; the collaborators imported from the [database]
    module ([db], [get_documents], [create_document]) and the process
    environment are the fields of a [World] record over which every
    statement quantifies.  A Python text is the [string] of the bytes of
    its UTF-8 encoding; lengths and slices of texts count characters, not
    bytes. *)

From stdpp Require Import gmap strings list fin_maps pretty.

Local Open Scope string_scope.

(** ** Values stored in a document *)

(** Mutable containers (nested lists, sub-documents, whole documents) live
    in an object store and are named by their location. *)
Definition loc := positive.

(** A naive [datetime.datetime], as the store driver decodes them. *)
Record datetime := Datetime {
  year : nat; month : nat; day : nat;
  hour : nat; minute : nat; second : nat; microsecond : nat
}.

(** A [datetime.date]. *)
Record date := Date { d_year : nat; d_month : nat; d_day : nat }.

Inductive value :=
  | VNone
  | VBool (b : bool)
  | VInt (n : Z)
  | VStr (s : string)
  | VObjectId (oid : string)   (* a [bson.ObjectId], by its 24 hex digits *)
  | VDatetime (t : datetime)
  | VDate (d : date)
  | VRef (l : loc).            (* a nested list or sub-document *)

Global Instance datetime_eq_dec : EqDecision datetime.
Proof. solve_decision. Defined.
Global Instance date_eq_dec : EqDecision date.
Proof. solve_decision. Defined.
Global Instance value_eq_dec : EqDecision value.
Proof. solve_decision. Defined.

(** [str(oid)] of an [ObjectId] is its hexadecimal form. *)
Definition str_ObjectId (oid : string) : string := oid.

Fixpoint zeros (n : nat) : string :=
  match n with
  | O => ""
  | S n' => "0" ++ zeros n'
  end.

(** The ["%0wd"] format of a natural number. *)
Definition zfill (w n : nat) : string :=
  let s := pretty n in zeros (w - String.length s) ++ s.

Definition date_isoformat (y m d : nat) : string :=
  zfill 4 y ++ "-" ++ zfill 2 m ++ "-" ++ zfill 2 d.

Definition datetime_isoformat (t : datetime) : string :=
  date_isoformat (year t) (month t) (day t) ++ "T" ++
  zfill 2 (hour t) ++ ":" ++ zfill 2 (minute t) ++ ":" ++ zfill 2 (second t) ++
  (if Nat.eqb (microsecond t) 0 then "" else "." ++ zfill 6 (microsecond t)).

(** [isoformat v] is [Some s] when [hasattr(v, "isoformat")] holds and
    [v.isoformat()] returns [s], and [None] when [v] has no such
    attribute. *)
Definition isoformat (v : value) : option string :=
  match v with
  | VDatetime t => Some (datetime_isoformat t)
  | VDate d => Some (date_isoformat (d_year d) (d_month d) (d_day d))
  | _ => None
  end.

(** ** The document normalizer *)

(** One iteration of [for k, v in list(out.items())]. *)
Definition convert_item (out : gmap string value) (kv : string * value)
  : gmap string value :=
  match isoformat kv.2 with
  | Some s => <[kv.1 := VStr s]> out
  | None => out
  end.

(** [if "_id" in out and isinstance(out["_id"], ObjectId):
       out["id"] = str(out.pop("_id"))] *)
Definition rename_id (out : gmap string value) : gmap string value :=
  match out !! "_id" with
  | Some (VObjectId oid) => <["id" := VStr (str_ObjectId oid)]> (delete "_id" out)
  | _ => out
  end.

Definition serialize_doc (doc : gmap string value) : gmap string value :=
  let out := doc in
  let out := rename_id out in
  foldl convert_item out (map_to_list out).

(** The effect of the conversion loop on one value. *)
Definition normalize_value (v : value) : value :=
  match isoformat v with
  | Some s => VStr s
  | None => v
  end.

(** The document has no timestamp-valued field. *)
Definition no_timestamp (doc : gmap string value) : Prop :=
  map_Forall (λ _ v, isoformat v = None) doc.

Global Instance no_timestamp_dec doc : Decision (no_timestamp doc).
Proof. unfold no_timestamp. apply _. Defined.

(** ** Collaborators and handler results *)

(** A Python exception caught by [except Exception], observed through
    [str(e)]. *)
Inductive exn := Exception (msg : string).

Definition str (e : exn) : string := let 'Exception msg := e in msg.

(** The result of calling a collaborator: it returns or it raises. *)
Inductive result (A : Type) :=
  | Return (a : A)
  | Raise (e : exn).
Arguments Return {A} a.
Arguments Raise {A} e.

(** What a route handler hands back to the framework: a body, an
    [HTTPException] it raised itself, or an exception it let through. *)
Inductive reply (A : Type) :=
  | Returned (body : A)
  | HTTPException (status_code : nat) (detail : string)
  | Unhandled (e : exn).
Arguments Returned {A} body.
Arguments HTTPException {A} status_code detail.
Arguments Unhandled {A} e.

(** The status line the framework sends for a reply. *)
Definition http_status {A} (r : reply A) : nat :=
  match r with
  | Returned _ => 200
  | HTTPException status_code _ => status_code
  | Unhandled _ => 500
  end.

(** The [db] handle of the [database] module, when it is not [None]:
    [getattr(db, "name", None)] and [db.list_collection_names()]. *)
Record Database := {
  db_name : option string;
  list_collection_names : result (list string)
}.

(** The surroundings of one request.  A schema object accepted by the
    validation layer is represented by the mapping of its fields. *)
Record World := {
  db : option Database;
  getenv : string → option string;
  get_documents : string → result (list (gmap string value));
  create_document : string → gmap string value → result value
}.

(** Truth value of [os.getenv(name)]: unset and empty are both false. *)
Definition truthy (o : option string) : bool :=
  match o with
  | Some s => negb (String.eqb s "")
  | None => false
  end.

(** ** Texts

    A byte of the form 10xxxxxx continues the character begun by the
    bytes before it; every other byte begins a character. *)
Definition is_continuation (c : Ascii.ascii) : bool :=
  match c with
  | Ascii.Ascii _ _ _ _ _ _ b6 b7 => b7 && negb b6
  end.

(** [len(s)]: the number of characters of a text. *)
Fixpoint char_length (s : string) : nat :=
  match s with
  | EmptyString => 0
  | String c s' =>
      if is_continuation c then char_length s' else S (char_length s')
  end.

(** [s[:n]]: the first [n] characters of a text, or all of it when it has
    fewer. *)
Fixpoint slice_to (n : nat) (s : string) : string :=
  match s with
  | EmptyString => EmptyString
  | String c s' =>
      if is_continuation c then String c (slice_to n s')
      else match n with
           | O => EmptyString
           | S n' => String c (slice_to n' s')
           end
  end.

(** ** GET /test *)

Record status := Status {
  backend : string;
  database : string;
  database_url : option string;
  database_name : option string;
  connection_status : string;
  collections : list string
}.

Definition set_database (x : string) (r : status) : status :=
  Status (backend r) x (database_url r) (database_name r)
         (connection_status r) (collections r).
Definition set_database_url (x : option string) (r : status) : status :=
  Status (backend r) (database r) x (database_name r)
         (connection_status r) (collections r).
Definition set_database_name (x : option string) (r : status) : status :=
  Status (backend r) (database r) (database_url r) x
         (connection_status r) (collections r).
Definition set_connection_status (x : string) (r : status) : status :=
  Status (backend r) (database r) (database_url r) (database_name r)
         x (collections r).
Definition set_collections (x : list string) (r : status) : status :=
  Status (backend r) (database r) (database_url r) (database_name r)
         (connection_status r) x.

(** Statements that update the [response] dictionary and may raise: the
    updates made before a raise stay in place. *)
Definition Stmt (A : Type) : Type := status → result A * status.

Global Instance Stmt_ret : MRet Stmt := λ A a r, (Return a, r).
Global Instance Stmt_bind : MBind Stmt := λ A B k m r,
  match m r with
  | (Return a, r') => k a r'
  | (Raise e, r') => (Raise e, r')
  end.
Definition call {A} (x : result A) : Stmt A := λ r, (x, r).
Definition assign (f : status → status) : Stmt unit := λ r, (Return tt, f r).
Definition try_except {A} (body : Stmt A) (handler : exn → Stmt A) : Stmt A :=
  λ r, match body r with
       | (Return a, r') => (Return a, r')
       | (Raise e, r') => handler e r'
       end.

Definition set_flag (o : option string) : string :=
  if truthy o then "✅ Set" else "❌ Not Set".

Definition initial_response : status :=
  {| backend := "✅ Running";
     database := "❌ Not Available";
     database_url := None;
     database_name := None;
     connection_status := "Not Connected";
     collections := [] |}.

Definition connected_name (d : Database) : string :=
  match db_name d with
  | Some n => if String.eqb n "" then "✅ Connected" else n
  | None => "✅ Connected"
  end.

(** The [try: ... except Exception as e: ...] statement. *)
Definition connection_check (w : World) : Stmt unit :=
  try_except
    (match db w with
     | Some d =>
         assign (set_database "✅ Available") ;;
         assign (set_database_url (Some (set_flag (getenv w "DATABASE_URL")))) ;;
         assign (set_database_name (Some (connected_name d))) ;;
         assign (set_connection_status "Connected") ;;
         try_except
           (collections ← call (list_collection_names d) ;
            assign (set_collections (take 10 collections)) ;;
            assign (set_database "✅ Connected & Working"))
           (λ e, assign (set_database
                   ("⚠️  Connected but Error: " ++ slice_to 50 (str e))))
     | None => assign (set_database "⚠️  Available but not initialized")
     end)
    (λ e, assign (set_database ("❌ Error: " ++ slice_to 50 (str e)))).

(** The response dictionary when the connection check is over. *)
Definition after_connection_check (w : World) : status :=
  (connection_check w initial_response).2.

(** The two assignments under [# Env checks]. *)
Definition env_checks (w : World) : Stmt unit :=
  assign (set_database_url (Some (set_flag (getenv w "DATABASE_URL")))) ;;
  assign (set_database_name (Some (set_flag (getenv w "DATABASE_NAME")))).

Definition test_database_body (w : World) : Stmt unit :=
  connection_check w ;; env_checks w.

Definition test_database (w : World) : reply status :=
  match test_database_body w initial_response with
  | (Return _, response) => Returned response
  | (Raise e, _) => Unhandled e
  end.

(** ** POST /api/appointments *)

Definition create_appointment (w : World) (appt : gmap string value)
  : reply (gmap string value) :=
  match create_document w "appointment" appt with
  | Return inserted_id =>
      Returned (<["id" := inserted_id]>
               (<["message" := VStr "Appointment request received"]> ∅))
  | Raise e => HTTPException 500 (str e)
  end.

(** ** GET /api/appointments *)

Definition list_appointments (w : World) : reply (list (gmap string value)) :=
  match get_documents w "appointment" with
  | Return docs => Returned (serialize_doc <$> docs)
  | Raise e => HTTPException 500 (str e)
  end.

(** ** GET /api/gallery *)

Definition gallery_item (url title category : string) : gmap string value :=
  <["url" := VStr url]>
  (<["title" := VStr title]>
  (<["category" := VStr category]> ∅)).

Definition DEFAULT_GALLERY : list (gmap string value) :=
  [ gallery_item
      "https://images.unsplash.com/photo-1504194104404-433180773017?q=80&w=1200&auto=format&fit=crop"
      "Coastal Cliffs" "Nature";
    gallery_item
      "https://images.unsplash.com/photo-1501785888041-af3ef285b470?q=80&w=1200&auto=format&fit=crop"
      "Mountain Range" "Landscapes";
    gallery_item
      "https://images.unsplash.com/photo-1500530855697-b586d89ba3ee?q=80&w=1200&auto=format&fit=crop"
      "City From Above" "Real Estate";
    gallery_item
      "https://images.unsplash.com/photo-1477959858617-67f85cf4f1df?q=80&w=1200&auto=format&fit=crop"
      "Golden Fields" "Agriculture" ].

Record gallery := Gallery {
  items : list (gmap string value);
  count : nat;
  source : string
}.

Definition get_gallery (w : World) : reply gallery :=
  match get_documents w "galleryimage" with
  | Return stored =>
      let stored_serialized := serialize_doc <$> stored in
      match stored_serialized with
      | [] => Returned (Gallery DEFAULT_GALLERY (length DEFAULT_GALLERY) "default")
      | _ => Returned (Gallery stored_serialized (length stored_serialized) "database")
      end
  | Raise _ =>
      Returned (Gallery DEFAULT_GALLERY (length DEFAULT_GALLERY) "default")
  end.

(** ** POST /api/gallery *)

Definition add_gallery_image (w : World) (img : gmap string value)
  : reply (gmap string value) :=
  match create_document w "galleryimage" img with
  | Return inserted_id =>
      Returned (<["id" := inserted_id]> (<["message" := VStr "Image added"]> ∅))
  | Raise e => HTTPException 500 (str e)
  end.

(** ** The normalizer on the object store

    Python passes dictionaries by reference.  Here [serialize_doc] is
    spelled out statement by statement on a store of objects, so that what
    it does to its argument, and where its result lives, can be stated. *)

Module Heap.

Inductive obj :=
  | ODict (fields : gmap string value)
  | OList (elems : list value).

(** Heap programs; [None] is a dynamic type error ([doc] is not a
    dictionary) or a [KeyError]. *)
Definition Prog (A : Type) : Type := gmap loc obj → option (A * gmap loc obj).

Global Instance Prog_ret : MRet Prog := λ A a h, Some (a, h).
Global Instance Prog_bind : MBind Prog := λ A B k m h,
  match m h with
  | Some (a, h') => k a h'
  | None => None
  end.

(** Read the fields of the dictionary at [l]. *)
Definition fields_of (l : loc) : Prog (gmap string value) := λ h,
  match h !! l with
  | Some (ODict d) => Some (d, h)
  | _ => None
  end.

(** Allocate a new dictionary object. *)
Definition new_dict (d : gmap string value) : Prog loc := λ h,
  let l := fresh (dom h) in Some (l, <[l := ODict d]> h).

(** [{**doc}] *)
Definition copy (doc : loc) : Prog loc :=
  d ← fields_of doc; new_dict d.

(** [l[k] = v] *)
Definition setitem (l : loc) (k : string) (v : value) : Prog unit := λ h,
  match h !! l with
  | Some (ODict d) => Some (tt, <[l := ODict (<[k := v]> d)]> h)
  | _ => None
  end.

(** [l.pop(k)] *)
Definition pop (l : loc) (k : string) : Prog value := λ h,
  match h !! l with
  | Some (ODict d) =>
      match d !! k with
      | Some v => Some (v, <[l := ODict (delete k d)]> h)
      | None => None
      end
  | _ => None
  end.

(** [list(l.items())] *)
Definition items (l : loc) : Prog (list (string * value)) :=
  d ← fields_of l; mret (map_to_list d).

Fixpoint for_each {A} (xs : list A) (body : A → Prog unit) : Prog unit :=
  match xs with
  | [] => mret tt
  | x :: xs' => body x ;; for_each xs' body
  end.

(** [if "_id" in out and isinstance(out["_id"], ObjectId):
       out["id"] = str(out.pop("_id"))] *)
Definition rename_id (out : loc) : Prog unit :=
  d ← fields_of out;
  match d !! "_id" with
  | Some (VObjectId _) =>
      v ← pop out "_id";
      match v with
      | VObjectId oid => setitem out "id" (VStr (str_ObjectId oid))
      | _ => mret tt
      end
  | _ => mret tt
  end.

(** [for k, v in list(out.items()):
       if hasattr(v, "isoformat"): out[k] = v.isoformat()] *)
Definition convert_items (out : loc) : Prog unit :=
  kvs ← items out;
  for_each kvs (λ kv,
    match isoformat kv.2 with
    | Some s => setitem out kv.1 (VStr s)
    | None => mret tt
    end).

Definition serialize_doc (doc : loc) : Prog loc :=
  out ← copy doc;
  rename_id out ;;
  convert_items out ;;
  mret out.

(** [[serialize_doc(d) for d in docs]] *)
Fixpoint serialize_all (docs : list loc) : Prog (list loc) :=
  match docs with
  | [] => mret []
  | d :: docs' =>
      out ← serialize_doc d;
      outs ← serialize_all docs';
      mret (out :: outs)
  end.

End Heap.

(** ** Sample inputs *)

Definition stored_doc : gmap string value :=
  <["_id" := VObjectId "65a1b2c3d4e5f60718293a4b"]>
  (<["title" := VStr "Dunes"]>
  (<["created_at" := VDatetime (Datetime 2024 1 2 3 4 5 0)]> ∅)).

(** A document whose ["_id"] was chosen by the writer and is not an
    [ObjectId]. *)
Definition foreign_id_doc : gmap string value :=
  <["_id" := VStr "cover"]> (<["title" := VStr "Dunes"]> ∅).

(** A document with both an [ObjectId] under ["_id"] and a timestamp under
    ["id"]. *)
Definition clash_doc : gmap string value :=
  <["_id" := VObjectId "65a1b2c3d4e5f60718293a4b"]>
  (<["id" := VDatetime (Datetime 2024 1 2 3 4 5 0)]> ∅).

Definition plain_doc : gmap string value :=
  gallery_item "https://example.org/dunes.jpg" "Dunes" "Nature".

(** A store holding [stored_doc] at location 1 and a list at 2. *)
Definition sample_heap : gmap loc Heap.obj :=
  <[1%positive := Heap.ODict stored_doc]>
  (<[2%positive := Heap.OList [VInt 1; VInt 2]]> ∅).

Definition unavailable {A} : result A :=
  Raise (Exception "Database not available. Check DATABASE_URL and DATABASE_NAME environment variables.").

(** No database handle, no environment. *)
Definition offline_world : World :=
  {| db := None;
     getenv := λ _, None;
     get_documents := λ _, unavailable;
     create_document := λ _ _, unavailable |}.

Definition live_env (name : string) : option string :=
  if String.eqb name "DATABASE_URL" then Some "mongodb://localhost:27017"
  else if String.eqb name "DATABASE_NAME" then Some "drones"
  else None.

(** A working store with one gallery image. *)
Definition live_world : World :=
  {| db := Some {| db_name := Some "drones";
                   list_collection_names := Return ["appointment"; "galleryimage"] |};
     getenv := live_env;
     get_documents := λ c,
       if String.eqb c "galleryimage" then Return [stored_doc] else Return [];
     create_document := λ _ _, Return (VStr "65a1b2c3d4e5f60718293a4c") |}.

(** A handle whose server cannot be reached. *)
Definition unreachable_world : World :=
  {| db := Some {| db_name := Some "drones";
                   list_collection_names :=
                     Raise (Exception "localhost:27017: [Errno 111] Connection refused, Timeout: 30s") |};
     getenv := live_env;
     get_documents := λ _, Raise (Exception "localhost:27017: [Errno 111] Connection refused, Timeout: 30s");
     create_document := λ _ _, Raise (Exception "localhost:27017: [Errno 111] Connection refused, Timeout: 30s") |}.

(** A handle whose listing fails with a message of 60 accented letters. *)
Definition accented_world : World :=
  {| db := Some {| db_name := Some "drones";
                   list_collection_names := Raise (Exception "éééééééééééééééééééééééééééééééééééééééééééééééééééééééééééé") |};
     getenv := live_env;
     get_documents := λ _, unavailable;
     create_document := λ _ _, unavailable |}.

(** [DATABASE_URL] is set, to the empty string. *)
Definition empty_url_world : World :=
  {| db := None;
     getenv := λ name, if String.eqb name "DATABASE_URL" then Some "" else None;
     get_documents := λ _, unavailable;
     create_document := λ _ _, unavailable |}.

(** A document with a reference to a nested list under ["tags"]. *)
Definition tagged_doc : gmap string value :=
  <["_id" := VObjectId "65a1b2c3d4e5f60718293a4d"]>
  (<["tags" := VRef 2%positive]>
  (<["owner" := VObjectId "65a1b2c3d4e5f60718293a4e"]> ∅)).

(** A store in which the same document is listed from two places. *)
Definition shared_heap : gmap loc Heap.obj :=
  <[1%positive := Heap.ODict tagged_doc]>
  (<[2%positive := Heap.OList [VStr "aerial"; VStr "coast"]]> ∅).

(** A working store with two appointments and an empty gallery. *)
Definition booked_world : World :=
  {| db := Some {| db_name := None;
                   list_collection_names :=
                     Return ["a"; "b"; "c"; "d"; "e"; "f"; "g"; "h"; "i"; "j"; "k"; "l"] |};
     getenv := live_env;
     get_documents := λ c,
       if String.eqb c "appointment" then Return [stored_doc; clash_doc]
       else Return [];
     create_document := λ c _,
       if String.eqb c "galleryimage" then Return (VStr "65a1b2c3d4e5f60718293a4f")
       else unavailable |}.

(** ** What the normalizer computes *)

Lemma isoformat_normalize_value v : isoformat (normalize_value v) = None.
Proof. by destruct v. Qed.

Lemma normalize_value_id v : isoformat v = None → normalize_value v = v.
Proof. unfold normalize_value. by intros ->. Qed.

Lemma convert_item_lookup out k v k' :
  convert_item out (k, v) !! k' =
  if decide (k = k') then
    match isoformat v with Some s => Some (VStr s) | None => out !! k' end
  else out !! k'.
Proof.
  unfold convert_item; simpl.
  destruct (isoformat v) as [s|]; case_decide; subst;
    by rewrite ?lookup_insert_eq, ?lookup_insert_ne.
Qed.

(** The loop runs over a snapshot [items] of the dictionary; since the
    keys of a snapshot are pairwise distinct, each key is rewritten from
    its own snapshot value, whatever the iteration order. *)
Lemma foldl_convert_item_lookup (items : list (string * value)) :
  NoDup items.*1 →
  ∀ (out : gmap string value) k,
    foldl convert_item out items !! k =
    match (list_to_map items : gmap string value) !! k with
    | Some v =>
        match isoformat v with Some s => Some (VStr s) | None => out !! k end
    | None => out !! k
    end.
Proof.
  induction items as [|[k0 v0] items IH]; intros Hnd out k; simpl.
  - by rewrite lookup_empty.
  - apply NoDup_cons in Hnd as [Hk0 Hnd].
    rewrite (IH Hnd), convert_item_lookup.
    destruct (decide (k0 = k)) as [->|Hne].
    + rewrite lookup_insert_eq.
      by rewrite (not_elem_of_list_to_map_1 _ _ Hk0).
    + by rewrite lookup_insert_ne.
Qed.

Lemma conversion_loop (out : gmap string value) :
  foldl convert_item out (map_to_list out) = normalize_value <$> out.
Proof.
  apply map_eq; intros k.
  rewrite foldl_convert_item_lookup by apply NoDup_fst_map_to_list.
  rewrite list_to_map_to_list, lookup_fmap.
  unfold normalize_value.
  destruct (out !! k) as [v|]; simpl; [|done].
  by destruct (isoformat v).
Qed.

Lemma serialize_doc_eq (doc : gmap string value) :
  serialize_doc doc = normalize_value <$> rename_id doc.
Proof. unfold serialize_doc. apply conversion_loop. Qed.

Example serialize_stored_doc :
  serialize_doc stored_doc =
  <["id" := VStr "65a1b2c3d4e5f60718293a4b"]>
  (<["title" := VStr "Dunes"]>
  (<["created_at" := VStr "2024-01-02T03:04:05"]> ∅)).
Proof. vm_compute. reflexivity. Qed.

Example isoformat_microseconds :
  isoformat (VDatetime (Datetime 987 12 31 23 59 59 1500)) =
  Some "0987-12-31T23:59:59.001500".
Proof. reflexivity. Qed.

Example isoformat_date : isoformat (VDate (Date 2024 2 29)) = Some "2024-02-29".
Proof. reflexivity. Qed.

(** *** The identifier step *)

Lemma rename_id_lookup_ne (doc : gmap string value) k :
  k ≠ "_id" → k ≠ "id" → rename_id doc !! k = doc !! k.
Proof.
  intros H1 H2. unfold rename_id.
  destruct (doc !! "_id") as [[]|]; try done.
  by rewrite lookup_insert_ne, lookup_delete_ne.
Qed.

Lemma rename_id_foreign (doc : gmap string value) :
  (∀ oid, doc !! "_id" ≠ Some (VObjectId oid)) → rename_id doc = doc.
Proof.
  intros H. unfold rename_id.
  destruct (doc !! "_id") as [[]|] eqn:E; try done.
  by destruct (H oid).
Qed.

Lemma rename_id_object_id (doc : gmap string value) oid :
  doc !! "_id" = Some (VObjectId oid) →
  rename_id doc = <["id" := VStr (str_ObjectId oid)]> (delete "_id" doc).
Proof. unfold rename_id. by intros ->. Qed.

Lemma serialize_doc_lookup (doc : gmap string value) k :
  serialize_doc doc !! k = normalize_value <$> rename_id doc !! k.
Proof. by rewrite serialize_doc_eq, lookup_fmap. Qed.

(** No value of a normalized document answers [isoformat]. *)
Lemma serialize_doc_no_timestamp (doc : gmap string value) k v :
  serialize_doc doc !! k = Some v → isoformat v = None.
Proof.
  rewrite serialize_doc_lookup.
  destruct (rename_id doc !! k) as [u|]; simpl; [|done].
  intros [= <-]. apply isoformat_normalize_value.
Qed.

(** A normalized document never holds an [ObjectId] under ["_id"]. *)
Lemma serialize_doc_no_object_id (doc : gmap string value) oid :
  serialize_doc doc !! "_id" ≠ Some (VObjectId oid).
Proof.
  rewrite serialize_doc_lookup.
  destruct (doc !! "_id") as [v|] eqn:E.
  - destruct v as [| | | |o| | |];
      try (rewrite rename_id_foreign, E by (intros o; by rewrite E); done).
    rewrite (rename_id_object_id _ _ E).
    by rewrite lookup_insert_ne, lookup_delete_eq.
  - rewrite rename_id_foreign, E by (intros o; by rewrite E). done.
Qed.

(** A document with no [ObjectId] under ["_id"] and no timestamp is left
    as it is. *)
Lemma serialize_doc_fixed (doc : gmap string value) :
  (∀ oid, doc !! "_id" ≠ Some (VObjectId oid)) →
  no_timestamp doc →
  serialize_doc doc = doc.
Proof.
  intros Hid Hts. apply map_eq; intros k.
  rewrite serialize_doc_lookup, rename_id_foreign by done.
  destruct (doc !! k) as [v|] eqn:E; simpl; [|done].
  by rewrite normalize_value_id by (by eapply Hts).
Qed.

(** X1: normalizing twice gives what normalizing once gives, for every
    document. *)
Lemma serialize_doc_idempotent (doc : gmap string value) :
  serialize_doc (serialize_doc doc) = serialize_doc doc.
Proof.
  apply serialize_doc_fixed.
  - apply serialize_doc_no_object_id.
  - intros k v. apply serialize_doc_no_timestamp.
Qed.

(** ** The claims about the normalizer *)

(** C1, as stated, fails: a document whose ["_id"] is not an [ObjectId]
    keeps that field under its original key and gets no ["id"] field. *)
Lemma serialize_doc_keeps_foreign_id :
  is_Some (foreign_id_doc !! "_id") ∧
  serialize_doc foreign_id_doc !! "_id" = Some (VStr "cover") ∧
  serialize_doc foreign_id_doc !! "id" = None.
Proof. split; [by eexists|]. by vm_compute. Qed.

(** C1, amended: for every document whose ["_id"] field holds an
    [ObjectId], [serialize_doc] returns a mapping with a string field
    ["id"], the stringified identifier, and no field under ["_id"]. *)
Theorem serialize_doc_object_id (doc : gmap string value) oid :
  doc !! "_id" = Some (VObjectId oid) →
  serialize_doc doc !! "id" = Some (VStr (str_ObjectId oid)) ∧
  serialize_doc doc !! "_id" = None.
Proof.
  intros H. rewrite !serialize_doc_lookup, (rename_id_object_id _ _ H).
  split.
  - by rewrite lookup_insert_eq.
  - by rewrite lookup_insert_ne, lookup_delete_eq.
Qed.

Lemma serialize_doc_object_id_witness :
  serialize_doc stored_doc !! "id" = Some (VStr "65a1b2c3d4e5f60718293a4b") ∧
  serialize_doc stored_doc !! "_id" = None.
Proof.
  apply (serialize_doc_object_id stored_doc "65a1b2c3d4e5f60718293a4b").
  vm_compute. reflexivity.
Defined.

(** C4, as stated, fails: a timestamp stored under ["id"] next to an
    [ObjectId] under ["_id"] is overwritten by the stringified identifier,
    not replaced by its ISO-8601 form. *)
Lemma serialize_doc_id_clash :
  clash_doc !! "id" = Some (VDatetime (Datetime 2024 1 2 3 4 5 0)) ∧
  isoformat (VDatetime (Datetime 2024 1 2 3 4 5 0)) = Some "2024-01-02T03:04:05" ∧
  serialize_doc clash_doc !! "id" = Some (VStr "65a1b2c3d4e5f60718293a4b").
Proof. by vm_compute. Qed.

(** C4, amended: [serialize_doc] replaces every top-level value that
    represents a timestamp with its ISO-8601 string, except a value under
    ["id"] of a document whose ["_id"] holds an [ObjectId]; and for every
    document with no timestamp-valued field, every field of the output
    other than ["_id"] and ["id"] equals the corresponding input field. *)
Theorem serialize_doc_timestamps (doc : gmap string value) :
  (∀ k v s,
     doc !! k = Some v → isoformat v = Some s →
     (k = "id" → ∀ oid, doc !! "_id" ≠ Some (VObjectId oid)) →
     serialize_doc doc !! k = Some (VStr s)) ∧
  (no_timestamp doc →
   ∀ k, k ≠ "_id" → k ≠ "id" → serialize_doc doc !! k = doc !! k).
Proof.
  split.
  - intros k v s Hk Hv Hid. rewrite serialize_doc_lookup.
    assert (rename_id doc !! k = Some v) as ->.
    { destruct (decide (k = "id")) as [->|Hne].
      - by rewrite rename_id_foreign by auto.
      - destruct (decide (k = "_id")) as [->|Hne'].
        + rewrite rename_id_foreign; [done|].
          intros oid Hoid. rewrite Hk in Hoid. by simplify_eq.
        + by rewrite rename_id_lookup_ne. }
    simpl. unfold normalize_value. by rewrite Hv.
  - intros Hts k H1 H2.
    rewrite serialize_doc_lookup, rename_id_lookup_ne by done.
    destruct (doc !! k) as [v|] eqn:E; simpl; [|done].
    by rewrite normalize_value_id by (by eapply Hts).
Qed.

Lemma serialize_doc_timestamps_witness :
  serialize_doc stored_doc !! "created_at" = Some (VStr "2024-01-02T03:04:05") ∧
  serialize_doc plain_doc !! "title" = plain_doc !! "title".
Proof.
  split.
  - apply (proj1 (serialize_doc_timestamps stored_doc) "created_at"
             (VDatetime (Datetime 2024 1 2 3 4 5 0))).
    + vm_compute. reflexivity.
    + vm_compute. reflexivity.
    + intros H. discriminate H.
  - apply (proj2 (serialize_doc_timestamps plain_doc)).
    + apply (bool_decide_unpack _). vm_compute. exact I.
    + intros H. discriminate H.
    + intros H. discriminate H.
Defined.

(** C7: a document with no identifier field and no timestamp-valued field
    is returned as it is. *)
Theorem serialize_doc_normalized (doc : gmap string value) :
  doc !! "_id" = None → no_timestamp doc → serialize_doc doc = doc.
Proof.
  intros Hid Hts. apply serialize_doc_fixed; [|done].
  intros oid. by rewrite Hid.
Qed.

Lemma serialize_doc_normalized_witness : serialize_doc plain_doc = plain_doc.
Proof.
  apply serialize_doc_normalized.
  - vm_compute. reflexivity.
  - apply (bool_decide_unpack _). vm_compute. exact I.
Defined.

(** ** GET /api/gallery *)

(** C2: when listing ["galleryimage"] returns an empty sequence or raises,
    the handler returns the four built-in items untouched, with count 4
    and source ["default"], and no error response. *)
Theorem get_gallery_default (w : World) :
  get_documents w "galleryimage" = Return [] ∨
  (∃ e, get_documents w "galleryimage" = Raise e) →
  get_gallery w = Returned (Gallery DEFAULT_GALLERY 4 "default") ∧
  length DEFAULT_GALLERY = 4 ∧
  http_status (get_gallery w) = 200.
Proof.
  unfold get_gallery. by intros [-> | [e ->]].
Qed.

Lemma get_gallery_default_witness :
  get_gallery offline_world = Returned (Gallery DEFAULT_GALLERY 4 "default") ∧
  length DEFAULT_GALLERY = 4 ∧
  http_status (get_gallery offline_world) = 200.
Proof.
  apply (get_gallery_default offline_world).
  right. eexists. reflexivity.
Defined.

(** C3: when listing ["galleryimage"] returns a non-empty sequence, the
    handler returns its documents normalized one by one, their number, and
    source ["database"]. *)
Theorem get_gallery_database (w : World) (stored : list (gmap string value)) :
  get_documents w "galleryimage" = Return stored →
  stored ≠ [] →
  get_gallery w =
  Returned (Gallery (serialize_doc <$> stored) (length stored) "database").
Proof.
  unfold get_gallery. intros -> Hne.
  destruct stored as [|d stored]; [done|].
  by rewrite length_fmap.
Qed.

Lemma get_gallery_database_witness :
  get_gallery live_world =
  Returned (Gallery (serialize_doc <$> [stored_doc]) (length [stored_doc]) "database").
Proof.
  apply (get_gallery_database live_world [stored_doc]).
  - reflexivity.
  - discriminate.
Defined.

(** C10: every call of the handler returns a body whose count is the
    length of its items. *)
Theorem get_gallery_count (w : World) :
  ∃ g, get_gallery w = Returned g ∧ count g = length (items g).
Proof.
  unfold get_gallery.
  destruct (get_documents w "galleryimage") as [stored|e]; [|by eexists].
  destruct stored; by eexists.
Qed.

(** ** POST /api/appointments *)

(** C6: a fault of the insert becomes a 500 reply carrying the message of
    the exception; a successful insert yields a mapping with the new
    identifier under ["id"] and a message string. *)
Theorem create_appointment_reply (w : World) (appt : gmap string value) :
  (∀ e, create_document w "appointment" appt = Raise e →
        create_appointment w appt = HTTPException 500 (str e) ∧
        http_status (create_appointment w appt) = 500) ∧
  (∀ inserted_id, create_document w "appointment" appt = Return inserted_id →
        ∃ body, create_appointment w appt = Returned body ∧
                body !! "id" = Some inserted_id ∧
                body !! "message" = Some (VStr "Appointment request received")).
Proof.
  unfold create_appointment. split.
  - by intros e ->.
  - intros inserted_id ->. eexists. split; [done|].
    by rewrite lookup_insert_eq, lookup_insert_ne, lookup_insert_eq.
Qed.

Lemma create_appointment_reply_witness :
  (create_appointment unreachable_world plain_doc =
     HTTPException 500 "localhost:27017: [Errno 111] Connection refused, Timeout: 30s" ∧
   http_status (create_appointment unreachable_world plain_doc) = 500) ∧
  (∃ body, create_appointment live_world plain_doc = Returned body ∧
           body !! "id" = Some (VStr "65a1b2c3d4e5f60718293a4c") ∧
           body !! "message" = Some (VStr "Appointment request received")).
Proof.
  split.
  - apply (proj1 (create_appointment_reply unreachable_world plain_doc)
             (Exception "localhost:27017: [Errno 111] Connection refused, Timeout: 30s")).
    reflexivity.
  - apply (proj2 (create_appointment_reply live_world plain_doc)).
    reflexivity.
Defined.

(** ** GET /test *)

Example test_database_live :
  test_database live_world =
  Returned (Status "✅ Running" "✅ Connected & Working"
                   (Some "✅ Set") (Some "✅ Set") "Connected"
                   ["appointment"; "galleryimage"]).
Proof. reflexivity. Qed.

Example test_database_offline :
  test_database offline_world =
  Returned (Status "✅ Running" "⚠️  Available but not initialized"
                   (Some "❌ Not Set") (Some "❌ Not Set") "Not Connected" []).
Proof. reflexivity. Qed.

Example slice_to_ascii : slice_to 5 "Connection refused" = "Conne".
Proof. reflexivity. Qed.

Example slice_to_accented : slice_to 3 "ééééé" = "ééé".
Proof. reflexivity. Qed.

Example char_length_accented :
  char_length "ééééé" = 5 ∧ String.length "ééééé" = 10.
Proof. split; reflexivity. Qed.

(** [len(s[:n]) == min(n, len(s))] *)
Lemma slice_to_char_length n s :
  char_length (slice_to n s) = n `min` char_length s.
Proof.
  revert n. induction s as [|c s IH]; intros n; simpl.
  - lia.
  - destruct (is_continuation c) eqn:Hc; simpl; rewrite ?Hc.
    + apply IH.
    + destruct n as [|n]; simpl; rewrite ?Hc, ?IH; lia.
Qed.

(** [s.startswith(s[:n])] *)
Lemma slice_to_prefix n s : ∃ rest, s = slice_to n s ++ rest.
Proof.
  revert n. induction s as [|c s IH]; intros n; simpl.
  - by exists "".
  - destruct (is_continuation c).
    + destruct (IH n) as [rest Hrest]. exists rest.
      change (String c s = String c (slice_to n s ++ rest)). by f_equal.
    + destruct n as [|n].
      * by eexists.
      * destruct (IH n) as [rest Hrest]. exists rest.
        change (String c s = String c (slice_to n s ++ rest)). by f_equal.
Qed.

(** A text of at most [n] characters is its own slice. *)
Lemma slice_to_short n s : (char_length s ≤ n)%nat → slice_to n s = s.
Proof.
  revert n. induction s as [|c s IH]; intros n; simpl; [done|].
  destruct (is_continuation c).
  - intros H. by rewrite IH.
  - destruct n as [|n]; [lia|]. intros H. rewrite IH; [done|lia].
Qed.

(** [os.getenv(name)] is true exactly when the variable is set to a
    non-empty string. *)
Lemma truthy_nonempty o : truthy o = true ↔ ∃ s, o = Some s ∧ s ≠ "".
Proof.
  destruct o as [s|]; simpl.
  - destruct (String.eqb_spec s "") as [->|Hs]; simpl; split.
    + done.
    + by intros (s' & [= <-] & Hs').
    + intros _. by exists s.
    + done.
  - split; [done | by intros (s & Hs & _)].
Qed.

Lemma connection_check_returns (w : World) :
  (connection_check w initial_response).1 = Return tt.
Proof.
  unfold connection_check, try_except.
  destruct (db w) as [d|]; [|done].
  unfold mbind, Stmt_bind, call, assign; simpl.
  by destruct (list_collection_names d).
Qed.

Lemma test_database_eq (w : World) :
  test_database w =
  Returned (set_database_name (Some (set_flag (getenv w "DATABASE_NAME")))
           (set_database_url (Some (set_flag (getenv w "DATABASE_URL")))
           (after_connection_check w))).
Proof.
  unfold test_database, test_database_body, after_connection_check.
  pose proof (connection_check_returns w) as H.
  unfold mbind at 1. unfold Stmt_bind.
  destruct (connection_check w initial_response) as [r response].
  simpl in H. by subst r.
Qed.

Lemma after_connection_check_fault (w : World) d e :
  db w = Some d → list_collection_names d = Raise e →
  after_connection_check w =
  Status "✅ Running"
         ("⚠️  Connected but Error: " ++ slice_to 50 (str e))
         (Some (set_flag (getenv w "DATABASE_URL")))
         (Some (connected_name d))
         "Connected" [].
Proof.
  intros Hd He.
  unfold after_connection_check, connection_check, try_except.
  rewrite Hd. unfold mbind, Stmt_bind, call, assign; simpl.
  by rewrite He.
Qed.

Lemma after_connection_check_backend (w : World) :
  backend (after_connection_check w) = "✅ Running".
Proof.
  unfold after_connection_check, connection_check, try_except.
  destruct (db w) as [d|]; [|done].
  unfold mbind, Stmt_bind, call, assign; simpl.
  by destruct (list_collection_names d).
Qed.

Example test_database_accented :
  test_database accented_world =
  Returned (Status "✅ Running"
                   "⚠️  Connected but Error: éééééééééééééééééééééééééééééééééééééééééééééééééé"
                   (Some "✅ Set") (Some "✅ Set") "Connected" []).
Proof. reflexivity. Qed.

(** C5: in every world the handler returns a status mapping (HTTP 200) and
    lets no exception through; the environment checks are made whatever
    the connection check met; and a fault of the collection listing ends
    up in the [database] field as the first 50 characters, at most, of its
    message, counted as characters of the text and not as bytes of its
    encoding. *)
Theorem test_database_contains_faults (w : World) :
  ∃ response,
    test_database w = Returned response ∧
    http_status (test_database w) = 200 ∧
    backend response = "✅ Running" ∧
    database_url response = Some (set_flag (getenv w "DATABASE_URL")) ∧
    database_name response = Some (set_flag (getenv w "DATABASE_NAME")) ∧
    ∀ d e, db w = Some d → list_collection_names d = Raise e →
      ∃ msg,
        database response = "⚠️  Connected but Error: " ++ msg ∧
        msg = slice_to 50 (str e) ∧
        (char_length msg ≤ 50)%nat ∧
        char_length msg = 50 `min` char_length (str e) ∧
        (∃ rest, str e = msg ++ rest) ∧
        ((char_length (str e) ≤ 50)%nat → msg = str e) ∧
        connection_status response = "Connected".
Proof.
  eexists. split; [apply test_database_eq|].
  rewrite test_database_eq. simpl.
  split; [done|]. split; [apply after_connection_check_backend|].
  split; [done|]. split; [done|].
  intros d e Hd He. rewrite (after_connection_check_fault w d e Hd He).
  exists (slice_to 50 (str e)). simpl.
  split; [done|]. split; [done|].
  split; [rewrite slice_to_char_length; lia|].
  split; [apply slice_to_char_length|].
  split; [apply slice_to_prefix|].
  split; [apply slice_to_short|done].
Qed.

Lemma test_database_contains_faults_witness :
  ∃ response,
    test_database unreachable_world = Returned response ∧
    http_status (test_database unreachable_world) = 200 ∧
    database_url response = Some "✅ Set" ∧
    database_name response = Some "✅ Set" ∧
    database response =
      "⚠️  Connected but Error: localhost:27017: [Errno 111] Connection refused, T".
Proof.
  destruct (test_database_contains_faults unreachable_world)
    as (response & H1 & H2 & _ & H4 & H5 & H6).
  destruct (H6 _ _ eq_refl eq_refl) as (msg & Hdb & Hmsg & _).
  exists response. rewrite Hmsg in Hdb.
  split; [exact H1|]. split; [exact H2|]. split; [exact H4|].
  split; [exact H5|]. exact Hdb.
Defined.

(** C9, as stated, fails: with [DATABASE_URL] set to the empty string the
    field reads ["❌ Not Set"]. *)
Lemma test_database_empty_url :
  getenv empty_url_world "DATABASE_URL" = Some "" ∧
  ∃ response,
    test_database empty_url_world = Returned response ∧
    database_url response = Some "❌ Not Set".
Proof. split; [reflexivity|]. eexists. split; reflexivity. Qed.

(** C9, amended: the [database_url] and [database_name] fields of the
    returned mapping are ["✅ Set"] or ["❌ Not Set"] according to whether
    [DATABASE_URL] and [DATABASE_NAME] are set to a non-empty value, and to
    nothing else; what the connection check wrote into these fields is
    overwritten. *)
Theorem test_database_env_flags (w : World) :
  ∃ response,
    test_database w = Returned response ∧
    database_url response =
      Some (if truthy (getenv w "DATABASE_URL") then "✅ Set" else "❌ Not Set") ∧
    database_name response =
      Some (if truthy (getenv w "DATABASE_NAME") then "✅ Set" else "❌ Not Set") ∧
    ∀ d, db w = Some d →
      database_name (after_connection_check w) = Some (connected_name d).
Proof.
  eexists. split; [apply test_database_eq|].
  repeat split; try done.
  intros d Hd.
  unfold after_connection_check, connection_check, try_except.
  rewrite Hd. unfold mbind, Stmt_bind, call, assign; simpl.
  by destruct (list_collection_names d).
Qed.

Lemma test_database_env_flags_witness :
  ∃ response,
    test_database live_world = Returned response ∧
    database_name response = Some "✅ Set" ∧
    database_name (after_connection_check live_world) = Some "drones".
Proof.
  destruct (test_database_env_flags live_world) as (response & H1 & _ & H3 & H4).
  exists response.
  split; [exact H1|]. split; [exact H3|]. exact (H4 _ eq_refl).
Defined.

(** ** The normalizer on the object store *)

Example heap_serialize_sample :
  Heap.serialize_doc 1%positive sample_heap =
  Some (3%positive,
        <[3%positive := Heap.ODict (serialize_doc stored_doc)]> sample_heap).
Proof. vm_compute. reflexivity. Qed.

(** A list is not a mapping. *)
Example heap_serialize_list : Heap.serialize_doc 2%positive sample_heap = None.
Proof. vm_compute. reflexivity. Qed.

Lemma heap_setitem_dict (h : gmap loc Heap.obj) out d k v :
  Heap.setitem out k v (<[out := Heap.ODict d]> h) =
  Some (tt, <[out := Heap.ODict (<[k := v]> d)]> h).
Proof.
  unfold Heap.setitem. by rewrite lookup_insert_eq, insert_insert_eq.
Qed.

Lemma heap_pop_dict (h : gmap loc Heap.obj) out d k v :
  d !! k = Some v →
  Heap.pop out k (<[out := Heap.ODict d]> h) =
  Some (v, <[out := Heap.ODict (delete k d)]> h).
Proof.
  intros Hk. unfold Heap.pop.
  by rewrite lookup_insert_eq, Hk, insert_insert_eq.
Qed.

Lemma heap_fields_of_dict (h : gmap loc Heap.obj) out d :
  Heap.fields_of out (<[out := Heap.ODict d]> h) =
  Some (d, <[out := Heap.ODict d]> h).
Proof. unfold Heap.fields_of. by rewrite lookup_insert_eq. Qed.

Lemma heap_bind {A B} (m : Heap.Prog A) (k : A → Heap.Prog B) h a h' :
  m h = Some (a, h') → (m ≫= k) h = k a h'.
Proof. intros H. unfold mbind, Heap.Prog_bind. by rewrite H. Qed.

Lemma heap_copy (h : gmap loc Heap.obj) doc d :
  h !! doc = Some (Heap.ODict d) →
  Heap.copy doc h = Some (fresh (dom h), <[fresh (dom h) := Heap.ODict d]> h).
Proof.
  intros Hdoc. unfold Heap.copy.
  erewrite heap_bind; [done|]. unfold Heap.fields_of. by rewrite Hdoc.
Qed.

Lemma heap_rename_id (h : gmap loc Heap.obj) out d :
  Heap.rename_id out (<[out := Heap.ODict d]> h) =
  Some (tt, <[out := Heap.ODict (rename_id d)]> h).
Proof.
  unfold Heap.rename_id, rename_id.
  erewrite heap_bind by apply heap_fields_of_dict.
  destruct (d !! "_id") as [[]|] eqn:E; try done.
  erewrite heap_bind by (by apply heap_pop_dict).
  apply heap_setitem_dict.
Qed.

(** The conversion loop only ever writes to [out]. *)
Lemma heap_for_each_convert (h : gmap loc Heap.obj) out kvs :
  ∀ d,
    Heap.for_each kvs (λ kv,
      match isoformat kv.2 with
      | Some s => Heap.setitem out kv.1 (VStr s)
      | None => mret tt
      end) (<[out := Heap.ODict d]> h) =
    Some (tt, <[out := Heap.ODict (foldl convert_item d kvs)]> h).
Proof.
  induction kvs as [|kv kvs IH]; intros d; simpl; [done|].
  unfold convert_item.
  destruct (isoformat kv.2) as [s|].
  - erewrite heap_bind by apply heap_setitem_dict. apply IH.
  - erewrite heap_bind by reflexivity. apply IH.
Qed.

Lemma heap_convert_items (h : gmap loc Heap.obj) out d :
  Heap.convert_items out (<[out := Heap.ODict d]> h) =
  Some (tt, <[out := Heap.ODict (foldl convert_item d (map_to_list d))]> h).
Proof.
  unfold Heap.convert_items, Heap.items.
  erewrite heap_bind; [apply heap_for_each_convert|].
  erewrite heap_bind by apply heap_fields_of_dict. done.
Qed.

(** The store-level normalizer allocates one new dictionary, fills it with
    what the value-level [serialize_doc] computes, and changes nothing
    else. *)
Lemma heap_serialize_doc_eq (h : gmap loc Heap.obj) doc d :
  h !! doc = Some (Heap.ODict d) →
  Heap.serialize_doc doc h =
  Some (fresh (dom h), <[fresh (dom h) := Heap.ODict (serialize_doc d)]> h).
Proof.
  intros Hdoc. unfold Heap.serialize_doc.
  erewrite heap_bind by (by apply heap_copy).
  erewrite heap_bind by apply heap_rename_id.
  erewrite heap_bind by apply heap_convert_items.
  done.
Qed.

(** C8: the call leaves the argument dictionary, and every other object of
    the store, as they were; the result is a dictionary allocated by the
    call, at a location that was free before and differs from the
    argument's, holding the normalized fields. *)
Theorem heap_serialize_doc_frame (h : gmap loc Heap.obj) doc d :
  h !! doc = Some (Heap.ODict d) →
  ∃ out h',
    Heap.serialize_doc doc h = Some (out, h') ∧
    h' !! doc = Some (Heap.ODict d) ∧
    (∀ l, l ≠ out → h' !! l = h !! l) ∧
    out ≠ doc ∧
    h !! out = None ∧
    h' !! out = Some (Heap.ODict (serialize_doc d)).
Proof.
  intros Hdoc.
  assert (h !! fresh (dom h) = None) as Hfresh.
  { apply not_elem_of_dom, is_fresh. }
  assert (fresh (dom h) ≠ doc) as Hne.
  { intros Heq. rewrite Heq, Hdoc in Hfresh. done. }
  eexists _, _. split; [by apply heap_serialize_doc_eq|].
  split; [by rewrite lookup_insert_ne|].
  split; [intros l Hl; by rewrite lookup_insert_ne|].
  split; [done|]. split; [done|].
  by rewrite lookup_insert_eq.
Qed.

Lemma heap_serialize_doc_frame_witness :
  ∃ out h',
    Heap.serialize_doc 1%positive sample_heap = Some (out, h') ∧
    h' !! 1%positive = Some (Heap.ODict stored_doc) ∧
    out ≠ 1%positive ∧
    h' !! out = Some (Heap.ODict (serialize_doc stored_doc)).
Proof.
  destruct (heap_serialize_doc_frame sample_heap 1%positive stored_doc)
    as (out & h' & H1 & H2 & _ & H4 & _ & H6).
  - vm_compute. reflexivity.
  - exists out, h'.
    split; [exact H1|]. split; [exact H2|]. split; [exact H4|]. exact H6.
Defined.

(** ** More about the normalizer *)

(** X2: the keys of the result.  With an [ObjectId] under ["_id"] the
    result has the keys of the document without ["_id"] and with ["id"];
    otherwise it has exactly the keys of the document. *)
Theorem serialize_doc_keys (doc : gmap string value) :
  (∀ oid, doc !! "_id" = Some (VObjectId oid) →
     dom (serialize_doc doc) = {["id"]} ∪ dom doc ∖ {["_id"]}) ∧
  ((∀ oid, doc !! "_id" ≠ Some (VObjectId oid)) →
     dom (serialize_doc doc) = dom doc).
Proof.
  rewrite serialize_doc_eq, dom_fmap_L. split.
  - intros oid H. rewrite (rename_id_object_id _ _ H).
    by rewrite dom_insert_L, dom_delete_L.
  - intros H. by rewrite rename_id_foreign.
Qed.

Lemma serialize_doc_keys_witness :
  dom (serialize_doc stored_doc) = {["id"]} ∪ dom stored_doc ∖ {["_id"]} ∧
  dom (serialize_doc foreign_id_doc) = dom foreign_id_doc.
Proof.
  split.
  - apply (proj1 (serialize_doc_keys stored_doc) "65a1b2c3d4e5f60718293a4b").
    vm_compute. reflexivity.
  - apply (proj2 (serialize_doc_keys foreign_id_doc)).
    intros oid H. vm_compute in H. discriminate H.
Defined.

(** X3: the number of fields.  A document that has an [ObjectId] under
    ["_id"] and also a field ["id"] loses one field; every other document
    keeps its number of fields. *)
Theorem serialize_doc_size (doc : gmap string value) :
  (∀ oid, doc !! "_id" = Some (VObjectId oid) → is_Some (doc !! "id") →
     S (size (serialize_doc doc)) = size doc) ∧
  (¬ ((∃ oid, doc !! "_id" = Some (VObjectId oid)) ∧ is_Some (doc !! "id")) →
     size (serialize_doc doc) = size doc).
Proof.
  rewrite serialize_doc_eq, map_size_fmap.
  assert (∀ oid, doc !! "_id" = Some (VObjectId oid) → size doc ≠ 0) as Hpos.
  { intros oid H Hsz. apply map_size_empty_inv in Hsz. by rewrite Hsz in H. }
  split.
  - intros oid H Hid. specialize (Hpos oid H).
    rewrite (rename_id_object_id _ _ H).
    rewrite map_size_insert_Some by (by rewrite lookup_delete_ne).
    rewrite map_size_delete_Some by (by rewrite H). lia.
  - intros Hno. destruct (doc !! "_id") as [v|] eqn:E.
    + destruct v as [| | | |oid| | |];
        try (by rewrite rename_id_foreign by (intros o; by rewrite E)).
      specialize (Hpos oid eq_refl).
      rewrite (rename_id_object_id _ _ E).
      rewrite map_size_insert_None.
      * rewrite map_size_delete_Some by (by rewrite E). lia.
      * rewrite lookup_delete_ne by done.
        destruct (doc !! "id") eqn:E'; [|done].
        destruct Hno. split; [by exists oid | by eexists].
    + by rewrite rename_id_foreign by (intros o; by rewrite E).
Qed.

Lemma serialize_doc_size_witness :
  S (size (serialize_doc clash_doc)) = size clash_doc ∧
  size (serialize_doc stored_doc) = size stored_doc.
Proof.
  split.
  - apply (proj1 (serialize_doc_size clash_doc) "65a1b2c3d4e5f60718293a4b").
    + vm_compute. reflexivity.
    + eexists. vm_compute. reflexivity.
  - apply (proj2 (serialize_doc_size stored_doc)).
    intros [_ [v H]]. vm_compute in H. discriminate H.
Defined.

(** X4: under every key other than ["_id"] and ["id"], whatever else the
    document holds, a missing field stays missing, a timestamp becomes its
    ISO-8601 string and any other value is passed through as it is: an
    [ObjectId] is not stringified there, and a nested container is not
    entered. *)
Theorem serialize_doc_other_fields (doc : gmap string value) k :
  k ≠ "_id" → k ≠ "id" →
  serialize_doc doc !! k =
  match doc !! k with
  | Some v => Some (match isoformat v with Some s => VStr s | None => v end)
  | None => None
  end.
Proof.
  intros H1 H2. rewrite serialize_doc_lookup, rename_id_lookup_ne by done.
  by destruct (doc !! k).
Qed.

Lemma serialize_doc_other_fields_witness :
  serialize_doc tagged_doc !! "owner" = Some (VObjectId "65a1b2c3d4e5f60718293a4e") ∧
  serialize_doc tagged_doc !! "tags" = Some (VRef 2%positive) ∧
  serialize_doc stored_doc !! "created_at" = Some (VStr "2024-01-02T03:04:05").
Proof.
  split; [|split].
  - apply (serialize_doc_other_fields tagged_doc "owner"); discriminate.
  - apply (serialize_doc_other_fields tagged_doc "tags"); discriminate.
  - apply (serialize_doc_other_fields stored_doc "created_at"); discriminate.
Defined.

(** X5: the result is normalized: none of its values is a timestamp, and
    it holds no [ObjectId] under ["_id"]. *)
Theorem serialize_doc_output (doc : gmap string value) :
  no_timestamp (serialize_doc doc) ∧
  ∀ oid, serialize_doc doc !! "_id" ≠ Some (VObjectId oid).
Proof.
  split.
  - intros k v. apply serialize_doc_no_timestamp.
  - apply serialize_doc_no_object_id.
Qed.

(** X6: the conversion loop may visit the items of the dictionary in any
    order: the resulting mapping is the same. *)
Theorem serialize_doc_any_order (doc : gmap string value) items :
  items ≡ₚ map_to_list (rename_id doc) →
  foldl convert_item (rename_id doc) items = serialize_doc doc.
Proof.
  intros Hperm. rewrite serialize_doc_eq.
  assert (NoDup items.*1) as Hnd.
  { rewrite Hperm. apply NoDup_fst_map_to_list. }
  apply map_eq; intros k.
  rewrite (foldl_convert_item_lookup _ Hnd).
  rewrite (list_to_map_proper _ _ Hnd Hperm), list_to_map_to_list, lookup_fmap.
  unfold normalize_value.
  destruct (rename_id doc !! k) as [v|]; simpl; [|done].
  by destruct (isoformat v).
Qed.

Lemma serialize_doc_any_order_witness :
  foldl convert_item (rename_id stored_doc)
        (reverse (map_to_list (rename_id stored_doc))) =
  serialize_doc stored_doc.
Proof.
  apply (serialize_doc_any_order stored_doc).
  apply reverse_Permutation.
Defined.

(** ** GET /api/appointments and POST /api/gallery *)

(** X7: listing the appointments returns the stored documents normalized
    one by one, in the order and number in which the store listed them, an
    empty store giving an empty list and no default; a fault of the store
    becomes a 500 reply carrying its message. *)
Theorem list_appointments_reply (w : World) :
  (∀ docs, get_documents w "appointment" = Return docs →
     ∃ body, list_appointments w = Returned body ∧
             length body = length docs ∧
             (docs = [] → body = []) ∧
             ∀ i d, docs !! i = Some d → body !! i = Some (serialize_doc d)) ∧
  (∀ e, get_documents w "appointment" = Raise e →
     list_appointments w = HTTPException 500 (str e) ∧
     http_status (list_appointments w) = 500).
Proof.
  unfold list_appointments. split.
  - intros docs ->. eexists. split; [done|].
    split; [by rewrite length_fmap|]. split; [by intros ->|].
    intros i d Hi. by rewrite list_lookup_fmap, Hi.
  - by intros e ->.
Qed.

Lemma list_appointments_reply_witness :
  (∃ body, list_appointments booked_world = Returned body ∧
           length body = 2 ∧
           body !! 1 = Some (serialize_doc clash_doc)) ∧
  list_appointments unreachable_world =
    HTTPException 500 "localhost:27017: [Errno 111] Connection refused, Timeout: 30s".
Proof.
  split.
  - destruct (proj1 (list_appointments_reply booked_world)
                [stored_doc; clash_doc] eq_refl) as (body & H1 & H2 & _ & H4).
    exists body. split; [exact H1|]. split; [exact H2|].
    apply (H4 1 clash_doc). reflexivity.
  - apply (proj2 (list_appointments_reply unreachable_world)
             (Exception "localhost:27017: [Errno 111] Connection refused, Timeout: 30s")).
    reflexivity.
Defined.

(** X8: adding a gallery image inserts into ["galleryimage"]: a fault
    becomes a 500 reply carrying its message; a success yields a mapping
    with exactly the keys ["id"] and ["message"], the new identifier and
    the text ["Image added"], and none of the fields of the image. *)
Theorem add_gallery_image_reply (w : World) (img : gmap string value) :
  (∀ e, create_document w "galleryimage" img = Raise e →
        add_gallery_image w img = HTTPException 500 (str e) ∧
        http_status (add_gallery_image w img) = 500) ∧
  (∀ inserted_id, create_document w "galleryimage" img = Return inserted_id →
        ∃ body, add_gallery_image w img = Returned body ∧
                body !! "id" = Some inserted_id ∧
                body !! "message" = Some (VStr "Image added") ∧
                dom body = {["id"; "message"]}).
Proof.
  unfold add_gallery_image. split.
  - by intros e ->.
  - intros inserted_id ->. eexists. split; [done|].
    split; [by rewrite lookup_insert_eq|].
    split; [by rewrite lookup_insert_ne, lookup_insert_eq|].
    rewrite !dom_insert_L, dom_empty_L. set_solver.
Qed.

Lemma add_gallery_image_reply_witness :
  add_gallery_image unreachable_world plain_doc =
    HTTPException 500 "localhost:27017: [Errno 111] Connection refused, Timeout: 30s" ∧
  (∃ body, add_gallery_image booked_world plain_doc = Returned body ∧
           body !! "id" = Some (VStr "65a1b2c3d4e5f60718293a4f") ∧
           body !! "message" = Some (VStr "Image added")).
Proof.
  split.
  - apply (proj1 (add_gallery_image_reply unreachable_world plain_doc)
             (Exception "localhost:27017: [Errno 111] Connection refused, Timeout: 30s")).
    reflexivity.
  - destruct (proj2 (add_gallery_image_reply booked_world plain_doc)
                (VStr "65a1b2c3d4e5f60718293a4f") eq_refl)
      as (body & H1 & H2 & H3 & _).
    exists body. split; [exact H1|]. split; [exact H2|]. exact H3.
Defined.

(** ** More about GET /api/gallery *)

Lemma gallery_item_normalized url title category :
  no_timestamp (gallery_item url title category) ∧
  ∀ oid, gallery_item url title category !! "_id" ≠ Some (VObjectId oid).
Proof.
  unfold gallery_item. split.
  - repeat apply map_Forall_insert_2; done || apply map_Forall_empty.
  - intros oid. by rewrite !lookup_insert_ne, lookup_empty.
Qed.

(** X9: in every world the gallery reply has at least one item, and its
    source is ["database"] exactly when the store listed at least one
    document, and ["default"] otherwise. *)
Theorem get_gallery_never_empty (w : World) :
  ∃ g, get_gallery w = Returned g ∧
       items g ≠ [] ∧
       0 < count g ∧
       (source g = "database" ∨ source g = "default") ∧
       (source g = "database" ↔
        ∃ stored, get_documents w "galleryimage" = Return stored ∧ stored ≠ []).
Proof.
  unfold get_gallery.
  destruct (get_documents w "galleryimage") as [[|d stored]|e]; simpl.
  - eexists. split; [done|]. simpl. split; [done|]. split; [lia|].
    split; [by right|]. split; [done|]. by intros (stored & [= <-] & ?).
  - eexists. split; [done|]. simpl. split; [done|]. split; [lia|].
    split; [by left|]. split; [|done]. intros _. by eexists.
  - eexists. split; [done|]. simpl. split; [done|]. split; [lia|].
    split; [by right|]. split; [done|]. by intros (stored & ? & ?).
Qed.

(** X10: whatever its source, no item of a gallery reply holds a
    timestamp value or an [ObjectId] under ["_id"]. *)
Theorem get_gallery_items_normalized (w : World) :
  ∃ g, get_gallery w = Returned g ∧
       Forall (λ item, no_timestamp item ∧
                       ∀ oid, item !! "_id" ≠ Some (VObjectId oid)) (items g).
Proof.
  assert (Forall (λ item, no_timestamp item ∧
                          ∀ oid, item !! "_id" ≠ Some (VObjectId oid))
                 DEFAULT_GALLERY) as Hdefault.
  { unfold DEFAULT_GALLERY. repeat constructor; apply gallery_item_normalized. }
  unfold get_gallery.
  destruct (get_documents w "galleryimage") as [[|d stored]|e]; simpl;
    try (by eexists).
  eexists. split; [done|]. simpl.
  constructor.
  - split; [intros k v; apply serialize_doc_no_timestamp
           | apply serialize_doc_no_object_id].
  - apply Forall_fmap, Forall_true. intros item. simpl.
    split; [intros k v; apply serialize_doc_no_timestamp
           | apply serialize_doc_no_object_id].
Qed.

(** ** More about GET /test *)

Lemma after_connection_check_listed (w : World) d cs :
  db w = Some d → list_collection_names d = Return cs →
  after_connection_check w =
  Status "✅ Running" "✅ Connected & Working"
         (Some (set_flag (getenv w "DATABASE_URL")))
         (Some (connected_name d))
         "Connected" (take 10 cs).
Proof.
  intros Hd Hcs.
  unfold after_connection_check, connection_check, try_except.
  rewrite Hd. unfold mbind, Stmt_bind, call, assign; simpl.
  by rewrite Hcs.
Qed.

Lemma after_connection_check_no_db (w : World) :
  db w = None →
  after_connection_check w =
  Status "✅ Running" "⚠️  Available but not initialized"
         None None "Not Connected" [].
Proof.
  intros Hd. unfold after_connection_check, connection_check, try_except.
  by rewrite Hd.
Qed.

(** X11: the reply lists at most 10 collections; when the listing
    succeeds they are the first 10 names of the listing, in its order (all
    of them when there are at most 10), and the database field reads
    ["✅ Connected & Working"]. *)
Theorem test_database_collections (w : World) :
  ∃ response,
    test_database w = Returned response ∧
    (length (collections response) ≤ 10)%nat ∧
    ∀ d cs, db w = Some d → list_collection_names d = Return cs →
      collections response = take 10 cs ∧
      ((length cs ≤ 10)%nat → collections response = cs) ∧
      database response = "✅ Connected & Working" ∧
      connection_status response = "Connected".
Proof.
  eexists. split; [apply test_database_eq|]. simpl. split.
  - destruct (db w) as [d|] eqn:Hd.
    + destruct (list_collection_names d) as [cs|e] eqn:Hcs.
      * rewrite (after_connection_check_listed w d cs Hd Hcs). simpl.
        rewrite length_take. lia.
      * rewrite (after_connection_check_fault w d e Hd Hcs). simpl. lia.
    + rewrite (after_connection_check_no_db w Hd). simpl. lia.
  - intros d cs Hd Hcs.
    rewrite (after_connection_check_listed w d cs Hd Hcs). simpl.
    split; [done|]. split; [|done].
    intros Hlen. by apply take_ge.
Qed.

Lemma test_database_collections_witness :
  ∃ response,
    test_database booked_world = Returned response ∧
    collections response = ["a"; "b"; "c"; "d"; "e"; "f"; "g"; "h"; "i"; "j"] ∧
    database response = "✅ Connected & Working".
Proof.
  destruct (test_database_collections booked_world) as (response & H1 & _ & H3).
  destruct (H3 _ _ eq_refl eq_refl) as (H4 & _ & H5 & _).
  exists response. split; [exact H1|]. split; [exact H4|]. exact H5.
Defined.

(** X12: the initial text ["❌ Not Available"] of the database field is
    never what the reply carries; the connection status is ["Connected"]
    exactly when there is a database handle and ["Not Connected"]
    otherwise; without a handle the database field reads
    ["⚠️  Available but not initialized"] and no collection is listed. *)
Theorem test_database_states (w : World) :
  ∃ response,
    test_database w = Returned response ∧
    database response ≠ "❌ Not Available" ∧
    (connection_status response = "Connected" ∨
     connection_status response = "Not Connected") ∧
    (connection_status response = "Connected" ↔ is_Some (db w)) ∧
    (db w = None →
       database response = "⚠️  Available but not initialized" ∧
       collections response = []).
Proof.
  eexists. split; [apply test_database_eq|]. simpl.
  destruct (db w) as [d|] eqn:Hd.
  - destruct (list_collection_names d) as [cs|e] eqn:Hcs.
    + rewrite (after_connection_check_listed w d cs Hd Hcs). simpl.
      split; [done|]. split; [by left|]. split; [|done].
      split; [by eexists | done].
    + rewrite (after_connection_check_fault w d e Hd Hcs). simpl.
      split; [by cbv [String.append]|]. split; [by left|]. split; [|done].
      split; [by eexists | done].
  - rewrite (after_connection_check_no_db w Hd). simpl.
    split; [done|]. split; [by right|]. split; [|done].
    split; [done | by intros [? ?]].
Qed.

Lemma test_database_states_witness :
  ∃ response,
    test_database offline_world = Returned response ∧
    database response = "⚠️  Available but not initialized" ∧
    collections response = [].
Proof.
  destruct (test_database_states offline_world) as (response & H1 & _ & _ & _ & H5).
  destruct (H5 eq_refl) as [H6 H7].
  exists response. split; [exact H1|]. split; [exact H6|]. exact H7.
Defined.

(** ** More about the normalizer on the object store *)

(** X13: the copy is shallow.  A reference to a nested container held
    under a key other than ["_id"] and ["id"] is found unchanged in the
    result, and the container it names is left as it was: the argument and
    the result share it. *)
Theorem heap_serialize_doc_shallow (h : gmap loc Heap.obj) doc d k l :
  h !! doc = Some (Heap.ODict d) →
  d !! k = Some (VRef l) →
  k ≠ "_id" → k ≠ "id" →
  is_Some (h !! l) →
  ∃ out h' fields,
    Heap.serialize_doc doc h = Some (out, h') ∧
    h' !! out = Some (Heap.ODict fields) ∧
    fields !! k = Some (VRef l) ∧
    l ≠ out ∧
    h' !! l = h !! l.
Proof.
  intros Hdoc Hk H1 H2 [x Hl].
  assert (h !! fresh (dom h) = None) as Hfresh.
  { apply not_elem_of_dom, is_fresh. }
  assert (l ≠ fresh (dom h)) as Hne.
  { intros ->. by rewrite Hfresh in Hl. }
  eexists _, _, _. split; [by apply heap_serialize_doc_eq|].
  split; [by rewrite lookup_insert_eq|].
  split.
  - by rewrite serialize_doc_lookup, rename_id_lookup_ne, Hk by done.
  - split; [done|]. by rewrite lookup_insert_ne.
Qed.

Lemma heap_serialize_doc_shallow_witness :
  ∃ out h' fields,
    Heap.serialize_doc 1%positive shared_heap = Some (out, h') ∧
    h' !! out = Some (Heap.ODict fields) ∧
    fields !! "tags" = Some (VRef 2%positive) ∧
    h' !! 2%positive = shared_heap !! 2%positive.
Proof.
  destruct (heap_serialize_doc_shallow shared_heap 1%positive tagged_doc
              "tags" 2%positive)
    as (out & h' & fields & H1 & H2 & H3 & _ & H5).
  - vm_compute. reflexivity.
  - vm_compute. reflexivity.
  - discriminate.
  - discriminate.
  - eexists. vm_compute. reflexivity.
  - exists out, h', fields.
    split; [exact H1|]. split; [exact H2|]. split; [exact H3|]. exact H5.
Defined.

(** X14: normalizing a list of documents one after the other, as the
    list comprehensions of the handlers do, succeeds when every entry
    names a dictionary, also when an entry occurs more than once.  Every
    object that existed before is left as it was; the results are as many
    as the entries, pairwise distinct, at locations that were free before;
    and the i-th result holds the normalized fields of the i-th entry. *)
Theorem heap_serialize_all_frame (docs : list loc) :
  ∀ h : gmap loc Heap.obj,
    Forall (λ l, ∃ d, h !! l = Some (Heap.ODict d)) docs →
    ∃ outs h',
      Heap.serialize_all docs h = Some (outs, h') ∧
      h ⊆ h' ∧
      length outs = length docs ∧
      NoDup outs ∧
      Forall (λ o, h !! o = None) outs ∧
      ∀ i l d, docs !! i = Some l → h !! l = Some (Heap.ODict d) →
        ∃ o, outs !! i = Some o ∧
             h' !! o = Some (Heap.ODict (serialize_doc d)).
Proof.
  induction docs as [|l docs IH]; intros h Hdocs.
  - exists [], h. split; [done|]. split; [done|]. split; [done|].
    split; [constructor|]. split; [constructor|]. intros i l d Hi. done.
  - apply Forall_cons in Hdocs as [[d Hl] Hdocs].
    set (o := fresh (dom h)).
    set (h1 := <[o := Heap.ODict (serialize_doc d)]> h).
    assert (h !! o = None) as Hfresh by apply not_elem_of_dom, is_fresh.
    assert (h ⊆ h1) as Hsub by by apply insert_subseteq.
    destruct (IH h1) as (outs & h' & Hrun & Hsub' & Hlen & Hnd & Hfree & Hres).
    { eapply Forall_impl; [exact Hdocs|]. intros l' [d' Hl'].
      exists d'. by eapply lookup_weaken. }
    exists (o :: outs), h'. split.
    { simpl. erewrite heap_bind by (by apply heap_serialize_doc_eq).
      fold o h1. by erewrite heap_bind by exact Hrun. }
    split; [by etrans|]. split; [simpl; by rewrite Hlen|].
    assert (h1 !! o = Some (Heap.ODict (serialize_doc d))) as Ho
      by apply lookup_insert_eq.
    split.
    { constructor; [|done]. intros Hin.
      rewrite Forall_forall in Hfree. specialize (Hfree o Hin).
      by rewrite Ho in Hfree. }
    split.
    { constructor; [done|]. eapply Forall_impl; [exact Hfree|].
      intros o' Ho'. simpl in Ho'.
      destruct (h !! o') as [x|] eqn:E; [|done].
      by rewrite (lookup_weaken _ _ _ _ E Hsub) in Ho'. }
    intros [|i] l' d' Hi Hl'; simpl in Hi.
    + injection Hi as <-. rewrite Hl in Hl'. injection Hl' as <-.
      exists o. split; [done|]. by eapply lookup_weaken.
    + apply (Hres i l' d' Hi). by eapply lookup_weaken.
Qed.

Example heap_serialize_all_shared :
  fst <$> Heap.serialize_all [1%positive; 1%positive] shared_heap =
  Some [3%positive; 4%positive].
Proof. vm_compute. reflexivity. Qed.

Lemma heap_serialize_all_frame_witness :
  ∃ outs h',
    Heap.serialize_all [1%positive; 1%positive] shared_heap = Some (outs, h') ∧
    shared_heap ⊆ h' ∧
    length outs = 2 ∧
    NoDup outs.
Proof.
  destruct (heap_serialize_all_frame [1%positive; 1%positive] shared_heap)
    as (outs & h' & H1 & H2 & H3 & H4 & _).
  - repeat constructor; exists tagged_doc; vm_compute; reflexivity.
  - exists outs, h'.
    split; [exact H1|]. split; [exact H2|]. split; [exact H3|]. exact H4.
Defined.
